(** * Theme controller of the admin dashboard (core/static/admin/dashboard.js)

    A shallow embedding of the script: the part of the page the script can
    see is a record, every DOM or storage access is a computation that may
    throw, and [apply], [init] and the click listener are written in a small
    state-and-exception monad in the order of the source statements.  The
    last lines of the script call [init] once, at once or when the document
    has been parsed; the development starts from that call. *)

From Stdlib Require Import String Ascii List Bool.
From stdpp Require Import base option gmap strings.
Import ListNotations.
Local Open Scope string_scope.

(** ** The JavaScript values the script handles *)

Module JS.

Inductive jsval : Type :=
| JUndefined
| JNull
| JStr (s : string).

(** ToBoolean: [undefined], [null] and the empty string are falsy. *)
Definition truthy (v : jsval) : bool :=
  match v with
  | JStr s => negb (String.eqb s "")
  | JUndefined | JNull => false
  end.

(** [a === b] *)
Definition strict_eq (a b : jsval) : bool :=
  match a, b with
  | JUndefined, JUndefined => true
  | JNull, JNull => true
  | JStr x, JStr y => String.eqb x y
  | _, _ => false
  end.

(** ToString, as applied by DOM string attributes and Storage values. *)
Definition to_string (v : jsval) : string :=
  match v with
  | JUndefined => "undefined"
  | JNull => "null"
  | JStr s => s
  end.

(** [a || b] *)
Definition or_else (a b : jsval) : jsval := if truthy a then a else b.

Inductive exn : Type :=
| TypeError
| SecurityError
| QuotaExceededError.

End JS.
Import JS.

(** ** The page as the script sees it *)

(** The toggle control [#themeToggle]: its markup and the number of click
    listeners this script has registered on it. *)
Record button : Type := mkButton {
  innerHTML : string;
  click_listeners : nat
}.

(** [window.localStorage]: the stored items, and whether reading or writing
    it throws (storage disabled by policy, quota exceeded). *)
Record storage : Type := mkStorage {
  items : gmap string string;
  readable : bool;
  writable : bool
}.

(** [link] and [btn] are the two constants bound by [getElementById] when the
    script starts: [None] stands for [null].  [link] holds the [href] of the
    stylesheet element.  [body_theme] is the [data-theme] attribute of
    [document.body], [None] while the attribute is not set; [init] only runs
    once the document has left the loading state, so the body exists. *)
Record page : Type := mkPage {
  link : option string;
  btn : option button;
  body_theme : option string;
  localStorage : storage
}.

Definition with_link (h : option string) (p : page) : page :=
  mkPage h (btn p) (body_theme p) (localStorage p).
Definition with_btn (b : option button) (p : page) : page :=
  mkPage (link p) b (body_theme p) (localStorage p).
Definition with_body_theme (t : option string) (p : page) : page :=
  mkPage (link p) (btn p) t (localStorage p).
Definition with_localStorage (st : storage) (p : page) : page :=
  mkPage (link p) (btn p) (body_theme p) st.

Definition with_items (m : gmap string string) (st : storage) : storage :=
  mkStorage m (readable st) (writable st).
Definition with_writable (w : bool) (st : storage) : storage :=
  mkStorage (items st) (readable st) w.

(** ** Computations: state passing with exceptions *)

Inductive outcome (A : Type) : Type :=
| Normal (a : A) (p : page)
| Thrown (e : exn) (p : page).
Arguments Normal {A} a p.
Arguments Thrown {A} e p.

Definition js (A : Type) : Type := page -> outcome A.

Definition ret {A} (a : A) : js A := fun p => Normal a p.

Definition bind {A B} (m : js A) (k : A -> js B) : js B :=
  fun p =>
    match m p with
    | Normal a p' => k a p'
    | Thrown e p' => Thrown e p'
    end.

(** [try { m } catch (e) { h e }] *)
Definition try_catch {A} (m : js A) (h : exn -> js A) : js A :=
  fun p =>
    match m p with
    | Normal a p' => Normal a p'
    | Thrown e p' => h e p'
    end.

Declare Scope js_scope.
Delimit Scope js_scope with js.
Notation "x <- m ;; k" := (bind m (fun x => k))
  (at level 100, m at next level, k at level 200, right associativity) : js_scope.
Notation "m ;; k" := (bind m (fun _ => k))
  (at level 100, k at level 200, right associativity) : js_scope.
Local Open Scope js_scope.

(** [if (c) { m }] with no else branch *)
Definition when (c : bool) (m : js unit) : js unit :=
  if c then m else ret tt.

(** The page a computation leaves behind, however it ended. *)
Definition page_after {A} (o : outcome A) : page :=
  match o with
  | Normal _ p => p
  | Thrown _ p => p
  end.

Definition completes {A} (o : outcome A) : bool :=
  match o with
  | Normal _ _ => true
  | Thrown _ _ => false
  end.

(** ** DOM and storage accesses *)

(** Truthiness of the constant [link]. *)
Definition link_present : js bool :=
  fun p => Normal (match link p with Some _ => true | None => false end) p.

(** Truthiness of the constant [btn]. *)
Definition btn_present : js bool :=
  fun p => Normal (match btn p with Some _ => true | None => false end) p.

(** [link.href = v]; a property write on [null] is a TypeError. *)
Definition set_link_href (v : jsval) : js unit :=
  fun p =>
    match link p with
    | Some _ => Normal tt (with_link (Some (to_string v)) p)
    | None => Thrown TypeError p
    end.

(** [btn.innerHTML = v] *)
Definition set_btn_innerHTML (v : jsval) : js unit :=
  fun p =>
    match btn p with
    | Some b => Normal tt (with_btn (Some (mkButton (to_string v) (click_listeners b))) p)
    | None => Thrown TypeError p
    end.

(** [btn.addEventListener("click", function(){...})]: every call passes a
    new function object, so every call adds a listener. *)
Definition btn_addEventListener_click : js unit :=
  fun p =>
    match btn p with
    | Some b => Normal tt (with_btn (Some (mkButton (innerHTML b) (S (click_listeners b)))) p)
    | None => Thrown TypeError p
    end.

(** [document.body.dataset.theme] *)
Definition get_body_dataset_theme : js jsval :=
  fun p =>
    Normal (match body_theme p with Some s => JStr s | None => JUndefined end) p.

(** [document.body.dataset.theme = v] *)
Definition set_body_dataset_theme (v : jsval) : js unit :=
  fun p => Normal tt (with_body_theme (Some (to_string v)) p).

(** [localStorage.getItem(k)]: [null] when the key is absent. *)
Definition localStorage_getItem (k : string) : js jsval :=
  fun p =>
    if readable (localStorage p)
    then Normal (match items (localStorage p) !! k with
                 | Some s => JStr s
                 | None => JNull
                 end) p
    else Thrown SecurityError p.

(** [localStorage.setItem(k, v)] *)
Definition localStorage_setItem (k : string) (v : jsval) : js unit :=
  fun p =>
    if writable (localStorage p)
    then Normal tt (with_localStorage
                      (with_items (<[k := to_string v]> (items (localStorage p)))
                                  (localStorage p)) p)
    else Thrown QuotaExceededError p.

(** ** The script *)

Definition THEME_KEY : string := "taw_dash_theme".

(** The two entries of the [THEMES] object. *)
Definition THEMES : gmap string string :=
  {[ "dark" := "https://cdn.jsdelivr.net/npm/bootswatch@5.3.3/dist/darkly/bootstrap.min.css";
     "light" := "https://cdn.jsdelivr.net/npm/bootswatch@5.3.3/dist/lux/bootstrap.min.css" ]}.

(** [THEMES[k]]: [undefined] for a key the object does not have. *)
Definition THEMES_get (k : string) : jsval :=
  match THEMES !! k with
  | Some url => JStr url
  | None => JUndefined
  end.

(** The double quote character of the markup literals. *)
Definition dq : string := String (ascii_of_nat 34) EmptyString.

(** Markup shown while [light] is applied: a moon, labelled Dark. *)
Definition moon_html : string :=
  "<i class=" +:+ dq +:+ "bi bi-moon-stars" +:+ dq +:+ "></i><span class="
  +:+ dq +:+ "ms-1" +:+ dq +:+ ">Dark</span>".

(** Markup shown while [dark] is applied: a sun, labelled Light. *)
Definition sun_html : string :=
  "<i class=" +:+ dq +:+ "bi bi-sun" +:+ dq +:+ "></i><span class="
  +:+ dq +:+ "ms-1" +:+ dq +:+ ">Light</span>".

(** Line 14: [theme === "light" ? "light" : "dark"] *)
Definition normalize (theme : jsval) : string :=
  if strict_eq theme (JStr "light") then "light" else "dark".

(** Lines 19-21: the markup chosen for the normalized theme [t]. *)
Definition control_html (t : string) : string :=
  if strict_eq (JStr t) (JStr "light") then moon_html else sun_html.

(** Lines 13-23 *)
Definition apply (theme : jsval) : js unit :=
  let t := normalize theme in
  (l <- link_present ;; when l (set_link_href (THEMES_get t))) ;;
  set_body_dataset_theme (JStr t) ;;
  try_catch (localStorage_setItem THEME_KEY (JStr t)) (fun _ => ret tt) ;;
  (b <- btn_present ;; when b (set_btn_innerHTML (JStr (control_html t)))).

(** Line 36: [cur === "dark" ? "light" : "dark"] *)
Definition inverse (cur : jsval) : jsval :=
  if strict_eq cur (JStr "dark") then JStr "light" else JStr "dark".

(** Lines 35-36, up to the call: the argument the listener passes to [apply]. *)
Definition click_theme : js jsval :=
  v <- get_body_dataset_theme ;;
  let cur := or_else v (JStr "dark") in
  ret (inverse cur).

(** Lines 34-37: the body of the click listener. *)
Definition click_handler : js unit :=
  t <- click_theme ;;
  apply t.

(** Lines 26-30: the local [t] when [apply(t)] is reached.  The catch block
    is empty, so [t] keeps its initial value when the read throws. *)
Definition init_theme : js jsval :=
  let t := JStr "dark" in
  try_catch
    (saved <- localStorage_getItem THEME_KEY ;;
     ret (if truthy saved then saved else t))
    (fun _ => ret t).

(** Lines 25-39 *)
Definition init : js unit :=
  t <- init_theme ;;
  apply t ;;
  (b <- btn_present ;; when b btn_addEventListener_click).

(** ** Runs of the controller *)

(** A call of [init], or one invocation of the click listener. *)
Inductive event : Type := Init | Click.

Definition step (e : event) : js unit :=
  match e with
  | Init => init
  | Click => click_handler
  end.

Fixpoint run (evs : list event) : js unit :=
  match evs with
  | [] => ret tt
  | e :: rest => step e ;; run rest
  end.

(** The value the event hands to [apply], from the page it starts on. *)
Definition requested (e : event) : js jsval :=
  match e with
  | Init => init_theme
  | Click => click_theme
  end.

Definition result_of {A} (d : A) (o : outcome A) : A :=
  match o with
  | Normal a _ => a
  | Thrown _ _ => d
  end.

(** The normalized preference of the last [apply] call of a run, [acc] when
    the run is empty. *)
Fixpoint last_applied (evs : list event) (p : page) (acc : option string) : option string :=
  match evs with
  | [] => acc
  | e :: rest =>
      last_applied rest (page_after (step e p))
                   (Some (normalize (result_of JUndefined (requested e p))))
  end.

(** A user click on the control: the browser calls every registered
    listener in turn. *)
Definition user_click : js unit :=
  fun p =>
    match btn p with
    | Some b => Nat.iter (click_listeners b) (fun m => click_handler ;; m) (ret tt) p
    | None => Normal tt p
    end.

(** ** Reading the three representations *)

(** The value stored under the fixed key. *)
Definition persisted (p : page) : option string :=
  items (localStorage p) !! THEME_KEY.

(** The preference whose activation a markup offers. *)
Definition offered (html : string) : option string :=
  if String.eqb html moon_html then Some "dark"
  else if String.eqb html sun_html then Some "light"
  else None.

Definition opposite (t : string) : string :=
  if String.eqb t "dark" then "light" else "dark".

(** The preference a markup implies to be the current one: the other one
    than the one it offers. *)
Definition implied_current (html : string) : option string :=
  opposite <$> offered html.

(** What a user sees of the page: stylesheet, state tag and control markup. *)
Definition view (p : page) : option string * option string * option string :=
  (link p, body_theme p, innerHTML <$> btn p).

(** Pages for the examples. *)
Definition fresh_page : page :=
  mkPage (Some "") (Some (mkButton "" 0)) None (mkStorage ∅ true true).

(** The same page with a storage whose writes always throw, or never do. *)
Definition storage_failing (p : page) : page :=
  with_localStorage (with_writable false (localStorage p)) p.
Definition storage_working (p : page) : page :=
  with_localStorage (with_writable true (localStorage p)) p.

(** A first visit with a storage that is full: reads work, writes throw. *)
Definition quota_page : page := storage_failing fresh_page.

(** A later visit: the key holds [light], or a string that names no theme. *)
Definition light_stored_page : page :=
  with_localStorage (mkStorage {[ THEME_KEY := "light" ]} true true) fresh_page.
Definition odd_stored_page : page :=
  with_localStorage (mkStorage {[ THEME_KEY := "solarized" ]} true true) fresh_page.

(** The pages once [init] has run. *)
Definition loaded_page : page := page_after (init fresh_page).
Definition loaded_quota_page : page := page_after (init quota_page).

(** The page [apply] leaves when its argument normalizes to [t], field by
    field; [apply_spec] below proves that the monadic code computes it. *)
Definition applied (t : string) (p : page) : page :=
  mkPage ((fun _ => to_string (THEMES_get t)) <$> link p)
         ((fun b => mkButton (control_html t) (click_listeners b)) <$> btn p)
         (Some t)
         (if writable (localStorage p)
          then with_items (<[THEME_KEY := t]> (items (localStorage p))) (localStorage p)
          else localStorage p).

(** The page after the listener registration at the end of [init]. *)
Definition registered (p : page) : page :=
  with_btn ((fun b => mkButton (innerHTML b) (S (click_listeners b))) <$> btn p) p.

(** The three representations name the preference [t]: the stored entry,
    the state tag, and, where the control exists, its markup, which offers
    the other preference and so implies [t] to be the current one. *)
Definition agree (t : string) (p : page) : Prop :=
  persisted p = Some t
  /\ body_theme p = Some t
  /\ match btn p with
     | Some b =>
         offered (innerHTML b) = Some (opposite t)
         /\ implied_current (innerHTML b) = Some t
     | None => True
     end.

(** ** The top level of the script *)

(** [document.readyState] *)
Inductive ready_state : Type := Loading | Interactive | Complete.

Definition ready_state_string (r : ready_state) : string :=
  match r with
  | Loading => "loading"
  | Interactive => "interactive"
  | Complete => "complete"
  end.

(** The document around the page: its ready state, and whether [init] is
    registered as a [DOMContentLoaded] listener.  Registering the same
    function again adds nothing, so a flag is enough. *)
Record document : Type := mkDocument {
  readyState : ready_state;
  DOMContentLoaded_init : bool;
  the_page : page
}.

(** A computation on the page, run inside the document; [Some e] reports an
    exception that escaped it. *)
Definition run_on_page (m : js unit) (d : document) : option exn * document :=
  match m (the_page d) with
  | Normal _ p => (None, mkDocument (readyState d) (DOMContentLoaded_init d) p)
  | Thrown e p => (Some e, mkDocument (readyState d) (DOMContentLoaded_init d) p)
  end.

(** Lines 41-45 *)
Definition main (d : document) : option exn * document :=
  if strict_eq (JStr (ready_state_string (readyState d))) (JStr "loading")
  then (None, mkDocument (readyState d) true (the_page d))
  else run_on_page init d.

(** The browser at the end of parsing: a loading document becomes
    interactive, then the registered [DOMContentLoaded] listener runs. *)
Definition fire_DOMContentLoaded (d : document) : option exn * document :=
  let r := match readyState d with
           | Loading => Interactive
           | r => r
           end in
  let d' := mkDocument r (DOMContentLoaded_init d) (the_page d) in
  if DOMContentLoaded_init d then run_on_page init d' else (None, d').

(** The script from its start to the end of parsing. *)
Definition page_load (d : document) : option exn * document :=
  match main d with
  | (None, d1) => fire_DOMContentLoaded d1
  | (Some e, d1) => (Some e, d1)
  end.

(** ** Counting *)

(** The number of [init] calls in a run. *)
Fixpoint inits (evs : list event) : nat :=
  match evs with
  | [] => 0
  | Init :: rest => S (inits rest)
  | Click :: rest => inits rest
  end.

(** The click listeners the script has on the control, none without one. *)
Definition registered_listeners (p : page) : nat :=
  match btn p with
  | Some b => click_listeners b
  | None => 0
  end.

(** The preference after [n] flips of [t]. *)
Definition flipped (n : nat) (t : string) : string :=
  if Nat.even n then t else opposite t.

(** A page whose storage also holds an entry of another script. *)
Definition shared_storage_page : page :=
  with_localStorage (mkStorage {[ "taw_session" := "abc" ]} true true) fresh_page.

(** The script in the head of a document that is still being parsed, and at
    the end of a parsed one. *)
Definition loading_document : document := mkDocument Loading false fresh_page.
Definition complete_document : document := mkDocument Complete false fresh_page.

(** A page on which [init] has run twice. *)
Definition twice_loaded_page : page := page_after ((init ;; init) fresh_page).

(** ** Basic facts *)

Lemma moon_sun_differ : moon_html <> sun_html.
Proof. vm_compute. discriminate. Qed.

Lemma normalize_cases (theme : jsval) :
  (theme = JStr "light" /\ normalize theme = "light")
  \/ (theme <> JStr "light" /\ normalize theme = "dark").
Proof.
  unfold normalize.
  destruct theme as [| | s]; simpl; try (right; split; [discriminate | reflexivity]).
  destruct (String.eqb_spec s "light") as [-> | Hne].
  - left. split; reflexivity.
  - right. split; [congruence | reflexivity].
Qed.

Lemma normalize_idem (theme : jsval) :
  normalize (JStr (normalize theme)) = normalize theme.
Proof. destruct (normalize_cases theme) as [[_ ->] | [_ ->]]; reflexivity. Qed.

Lemma apply_spec (theme : jsval) (p : page) :
  apply theme p = Normal tt (applied (normalize theme) p).
Proof.
  destruct p as [[l |] [b |] bt [it r [|]]]; reflexivity.
Qed.

Lemma click_theme_spec (p : page) :
  click_theme p =
  Normal (inverse (or_else (match body_theme p with
                            | Some s => JStr s
                            | None => JUndefined
                            end) (JStr "dark"))) p.
Proof. reflexivity. Qed.

Lemma init_theme_total (p : page) : exists v, init_theme p = Normal v p.
Proof.
  unfold init_theme, try_catch, bind, localStorage_getItem, ret.
  destruct (readable (localStorage p)); eauto.
Qed.

Lemma init_spec (p : page) (v : jsval) :
  init_theme p = Normal v p ->
  init p = Normal tt (registered (applied (normalize v) p)).
Proof.
  intros Hv. unfold init, bind. rewrite Hv, apply_spec.
  destruct p as [l [b |] bt st]; reflexivity.
Qed.

Lemma click_handler_spec (p : page) :
  click_handler p =
  Normal tt (applied (normalize (result_of JUndefined (click_theme p))) p).
Proof. unfold click_handler, bind. rewrite click_theme_spec. apply apply_spec. Qed.

(** With the single listener that one [init] registers, a user click is one
    invocation of the listener. *)
Lemma user_click_single (p : page) (b : button) :
  btn p = Some b ->
  click_listeners b = 1 ->
  user_click p = click_handler p.
Proof.
  intros Hb Hn. unfold user_click. rewrite Hb, Hn. simpl. unfold bind.
  rewrite click_handler_spec. reflexivity.
Qed.

Lemma applied_persisted (t : string) (p : page) :
  persisted (applied t p) =
  if writable (localStorage p) then Some t else persisted p.
Proof.
  unfold persisted, applied. simpl.
  destruct (writable (localStorage p)); simpl; [apply lookup_insert_eq | reflexivity].
Qed.

Lemma applied_view (t : string) (p : page) :
  view (applied t p) =
  ((fun _ => to_string (THEMES_get t)) <$> link p,
   Some t,
   (fun _ => control_html t) <$> btn p).
Proof. unfold view, applied. simpl. destruct (btn p); reflexivity. Qed.

Lemma applied_idem (t : string) (p : page) : applied t (applied t p) = applied t p.
Proof.
  destruct p as [[l |] [b |] bt [it r [|]]]; unfold applied; simpl;
    rewrite ?insert_insert_eq; reflexivity.
Qed.

(** ** Normalization (C3) *)

(** C3: [apply] maps its argument to [light] exactly when the argument is the
    string [light] and to [dark] for every other value; the call behaves as
    the call on the normalized value, and the stylesheet reference, the state
    tag, the stored entry and the control markup it leaves are those of the
    normalized value. *)
Theorem C3_apply_uses_normalized_value (theme : jsval) (p : page) :
  ((theme = JStr "light" /\ normalize theme = "light")
   \/ (theme <> JStr "light" /\ normalize theme = "dark"))
  /\ apply theme p = apply (JStr (normalize theme)) p
  /\ exists p',
      apply theme p = Normal tt p'
      /\ link p' = (fun _ => to_string (THEMES_get (normalize theme))) <$> link p
      /\ body_theme p' = Some (normalize theme)
      /\ persisted p' =
         (if writable (localStorage p) then Some (normalize theme) else persisted p)
      /\ innerHTML <$> btn p' = (fun _ => control_html (normalize theme)) <$> btn p.
Proof.
  split; [apply normalize_cases |].
  split; [rewrite !apply_spec, normalize_idem; reflexivity |].
  exists (applied (normalize theme) p).
  split; [apply apply_spec |].
  split; [reflexivity |].
  split; [reflexivity |].
  split; [apply applied_persisted |].
  unfold applied; simpl. destruct (btn p); reflexivity.
Qed.

(** ** Missing elements (C8) *)

(** C8: on every page and for every argument [apply] returns normally; it
    always writes the state tag and attempts the storage write, rewrites the
    stylesheet reference when the link element exists and the control markup
    when the control exists, and leaves an absent element absent. *)
Theorem C8_apply_tolerates_missing_elements (theme : jsval) (p : page) :
  exists p',
    apply theme p = Normal tt p'
    /\ body_theme p' = Some (normalize theme)
    /\ persisted p' =
       (if writable (localStorage p) then Some (normalize theme) else persisted p)
    /\ match link p with
       | Some _ => link p' = Some (to_string (THEMES_get (normalize theme)))
       | None => link p' = None
       end
    /\ match btn p with
       | Some b => btn p' = Some (mkButton (control_html (normalize theme)) (click_listeners b))
       | None => btn p' = None
       end.
Proof.
  exists (applied (normalize theme) p).
  split; [apply apply_spec |].
  split; [reflexivity |].
  split; [apply applied_persisted |].
  unfold applied; simpl. destruct (link p), (btn p); split; reflexivity.
Qed.

(** ** Idempotence (C9) *)

(** C9: two calls of [apply] with the same argument leave exactly the page
    one call leaves: the same state tag, stylesheet reference, control
    markup and stored items. *)
Theorem C9_apply_idempotent (theme : jsval) (p : page) :
  (apply theme ;; apply theme) p = apply theme p.
Proof.
  unfold bind. rewrite apply_spec, apply_spec, applied_idem. reflexivity.
Qed.

(** ** The state tag is always well formed (C10) *)

(** C10: after [apply], on any page and for any argument, the state tag is
    [dark] or [light], namely the normalized argument; the listener then
    requests the opposite preference.  On every page the listener computes
    its request from the state tag alone, with [dark] for an unset tag, and
    what it shows does not depend on the storage. *)
Theorem C10_state_tag_well_formed (theme : jsval) (p : page) :
  exists p' : page,
    apply theme p = Normal tt p'
    /\ (body_theme p' = Some "dark" \/ body_theme p' = Some "light")
    /\ body_theme p' = Some (normalize theme)
    /\ click_theme p' = Normal (JStr (opposite (normalize theme))) p'
    /\ (forall q : page,
          click_handler q =
          apply (inverse (or_else (match body_theme q with
                                   | Some s => JStr s
                                   | None => JUndefined
                                   end) (JStr "dark"))) q)
    /\ (forall (q : page) (st : storage),
          view (page_after (click_handler (with_localStorage st q)))
          = view (page_after (click_handler q))).
Proof.
  exists (applied (normalize theme) p).
  split; [apply apply_spec |].
  split; [simpl; destruct (normalize_cases theme) as [[_ ->] | [_ ->]]; auto |].
  split; [reflexivity |].
  split.
  { rewrite click_theme_spec. simpl.
    destruct (normalize_cases theme) as [[_ ->] | [_ ->]]; reflexivity. }
  split.
  - intros q. reflexivity.
  - intros q st. rewrite !click_handler_spec. simpl. rewrite !applied_view. reflexivity.
Qed.

(** ** The invariant of the three representations (C1) *)

Lemma applied_agree (t : string) (p : page) :
  writable (localStorage p) = true ->
  t = "dark" \/ t = "light" ->
  agree t (applied t p).
Proof.
  intros Hw Ht. unfold agree. rewrite applied_persisted, Hw.
  split; [reflexivity |]. split; [reflexivity |].
  unfold applied; simpl. destruct (btn p) as [b |]; simpl; [| exact I].
  destruct Ht as [-> | ->]; split; vm_compute; reflexivity.
Qed.

Lemma agree_registered (t : string) (p : page) : agree t p -> agree t (registered p).
Proof.
  unfold agree, registered, persisted. simpl.
  destruct (btn p); simpl; tauto.
Qed.

Lemma normalize_valid (theme : jsval) :
  normalize theme = "dark" \/ normalize theme = "light".
Proof. destruct (normalize_cases theme) as [[_ ->] | [_ ->]]; auto. Qed.

Lemma applied_writable (t : string) (p : page) :
  writable (localStorage (applied t p)) = writable (localStorage p).
Proof. unfold applied; simpl. destruct (writable (localStorage p)) eqn:E; simpl; auto. Qed.

Lemma step_agree (e : event) (p : page) :
  writable (localStorage p) = true ->
  exists p',
    step e p = Normal tt p'
    /\ writable (localStorage p') = true
    /\ agree (normalize (result_of JUndefined (requested e p))) p'.
Proof.
  intros Hw. destruct e; simpl.
  - destruct (init_theme_total p) as [v Hv].
    rewrite (init_spec p v Hv), Hv. simpl.
    eexists. split; [reflexivity |]. split.
    + change (writable (localStorage (applied (normalize v) p)) = true).
      rewrite applied_writable. exact Hw.
    + apply agree_registered, applied_agree; [exact Hw | apply normalize_valid].
  - rewrite click_handler_spec.
    eexists. split; [reflexivity |]. split.
    + rewrite applied_writable. exact Hw.
    + apply applied_agree; [exact Hw | apply normalize_valid].
Qed.

Lemma run_agree (evs : list event) :
  forall (p : page) (t : string),
    writable (localStorage p) = true ->
    (t = "dark" \/ t = "light") ->
    agree t p ->
    exists (t' : string) (p' : page),
      run evs p = Normal tt p'
      /\ last_applied evs p (Some t) = Some t'
      /\ (t' = "dark" \/ t' = "light")
      /\ agree t' p'.
Proof.
  induction evs as [| e rest IH]; intros p t Hw Ht Ha.
  - exists t, p. repeat split; try assumption; apply Ha.
  - destruct (step_agree e p Hw) as (p1 & Hstep & Hw1 & Ha1).
    destruct (IH p1 _ Hw1 (normalize_valid _) Ha1) as (t' & p' & Hrun & Hlast & Ht' & Ha').
    exists t', p'. simpl. unfold bind. rewrite Hstep. simpl.
    repeat split; try assumption; apply Ha'.
Qed.

(** C1: when storage writes succeed, after [init] and after every further
    invocation of the click listener the stored entry and the state tag both
    hold the preference of the latest [apply] call, and the control, where
    it exists, offers the other preference, implying the same current one. *)
Theorem C1_representations_agree (evs : list event) (p : page) :
  writable (localStorage p) = true ->
  exists (t : string) (p' : page),
    run (Init :: evs) p = Normal tt p'
    /\ last_applied (Init :: evs) p None = Some t
    /\ (t = "dark" \/ t = "light")
    /\ persisted p' = Some t
    /\ body_theme p' = Some t
    /\ match btn p' with
       | Some b =>
           offered (innerHTML b) = Some (opposite t)
           /\ implied_current (innerHTML b) = Some t
       | None => True
       end.
Proof.
  intros Hw.
  destruct (step_agree Init p Hw) as (p1 & Hstep & Hw1 & Ha1).
  destruct (run_agree evs p1 _ Hw1 (normalize_valid _) Ha1)
    as (t' & p' & Hrun & Hlast & Ht' & Ha').
  exists t', p'.
  split; [simpl in *; unfold bind; rewrite Hstep; exact Hrun |].
  split; [simpl in *; rewrite Hstep; exact Hlast |].
  split; [exact Ht' | exact Ha'].
Qed.

Lemma C1_representations_agree_witness :
  writable (localStorage fresh_page) = true
  /\ exists (t : string) (p' : page),
      run [Init; Click; Click; Click] fresh_page = Normal tt p'
      /\ last_applied [Init; Click; Click; Click] fresh_page None = Some t
      /\ (t = "dark" \/ t = "light")
      /\ persisted p' = Some t
      /\ body_theme p' = Some t
      /\ match btn p' with
         | Some b =>
             offered (innerHTML b) = Some (opposite t)
             /\ implied_current (innerHTML b) = Some t
         | None => True
         end.
Proof.
  split; [reflexivity |].
  apply (C1_representations_agree [Click; Click; Click] fresh_page).
  reflexivity.
Defined.

(** ** What [init] and the listener request *)

Lemma THEMES_entries :
  THEMES_get "dark"
  = JStr "https://cdn.jsdelivr.net/npm/bootswatch@5.3.3/dist/darkly/bootstrap.min.css"
  /\ THEMES_get "light"
     = JStr "https://cdn.jsdelivr.net/npm/bootswatch@5.3.3/dist/lux/bootstrap.min.css".
Proof. split; vm_compute; reflexivity. Qed.

Lemma init_theme_light (p : page) :
  localStorage_getItem THEME_KEY p = Normal (JStr "light") p ->
  init_theme p = Normal (JStr "light") p.
Proof.
  intros H. unfold init_theme, try_catch, bind. rewrite H. reflexivity.
Qed.

Lemma init_theme_dark (p : page) :
  readable (localStorage p) = false \/ persisted p <> Some "light" ->
  exists v, init_theme p = Normal v p /\ normalize v = "dark".
Proof.
  intros H. unfold init_theme, try_catch, bind, localStorage_getItem, ret, persisted in *.
  destruct (readable (localStorage p)); [| eexists; split; reflexivity].
  destruct H as [H | H]; [discriminate |].
  destruct (items (localStorage p) !! THEME_KEY) as [s |]; [| eexists; split; reflexivity].
  simpl. destruct (String.eqb_spec s "") as [-> | Hne]; simpl;
    [eexists; split; reflexivity |].
  exists (JStr s). split; [reflexivity |].
  unfold normalize. simpl.
  destruct (String.eqb_spec s "light") as [-> | _]; [congruence | reflexivity].
Qed.

Lemma init_fields (p : page) (v : jsval) :
  init_theme p = Normal v p ->
  exists p',
    init p = Normal tt p'
    /\ link p' = (fun _ => to_string (THEMES_get (normalize v))) <$> link p
    /\ body_theme p' = Some (normalize v)
    /\ innerHTML <$> btn p' = (fun _ => control_html (normalize v)) <$> btn p
    /\ persisted p' =
       (if writable (localStorage p) then Some (normalize v) else persisted p).
Proof.
  intros Hv. rewrite (init_spec p v Hv). eexists. split; [reflexivity |].
  split; [reflexivity |]. split; [reflexivity |].
  split.
  - unfold registered, applied. simpl. destruct (btn p); reflexivity.
  - change (persisted (registered (applied (normalize v) p)))
      with (persisted (applied (normalize v) p)).
    apply applied_persisted.
Qed.

(** Storing through [apply] and loading a page again: with a storage that can
    be read and written, [init] on any page that carries the storage left by
    [apply "light"] sets the state tag [light]. *)
Lemma round_trip_after_apply (p q : page) :
  readable (localStorage p) = true ->
  writable (localStorage p) = true ->
  body_theme
    (page_after
       (init (with_localStorage (localStorage (page_after (apply (JStr "light") p))) q)))
  = Some "light".
Proof.
  intros Hr Hw. rewrite apply_spec. simpl.
  set (q' := with_localStorage _ q).
  assert (Hg : localStorage_getItem THEME_KEY q' = Normal (JStr "light") q').
  { unfold localStorage_getItem, q'. simpl. rewrite Hw. simpl.
    rewrite Hr, lookup_insert_eq. reflexivity. }
  rewrite (init_spec q' _ (init_theme_light q' Hg)). reflexivity.
Qed.

Lemma step_total (e : event) (p : page) : exists p', step e p = Normal tt p'.
Proof.
  destruct e; simpl.
  - destruct (init_theme_total p) as [v Hv]. rewrite (init_spec p v Hv). eauto.
  - rewrite click_handler_spec. eauto.
Qed.

Lemma run_total (evs : list event) : forall p, exists p', run evs p = Normal tt p'.
Proof.
  induction evs as [| e rest IH]; intros p; simpl.
  - exists p. reflexivity.
  - unfold bind. destruct (step_total e p) as [p1 ->]. apply IH.
Qed.

Lemma click_changes_tag (q : page) :
  body_theme (page_after (click_handler q)) <> body_theme q.
Proof.
  rewrite click_handler_spec, click_theme_spec. simpl.
  destruct (body_theme q) as [s |]; [| discriminate].
  unfold or_else, inverse, normalize. simpl.
  destruct (String.eqb_spec s "") as [-> | Hne]; simpl; [discriminate |].
  destruct (String.eqb_spec s "dark") as [-> | Hd]; simpl; congruence.
Qed.

(** ** Toggling (C2) *)

(** On a loaded page whose storage writes throw, a click from tag [dark]
    leaves tag [light] while nothing is stored, and reading the key still
    yields [null]: the persisted value is not [light]. *)
Lemma C2_counterexample :
  body_theme loaded_quota_page = Some "dark"
  /\ body_theme (page_after (click_handler loaded_quota_page)) = Some "light"
  /\ persisted (page_after (click_handler loaded_quota_page)) = None
  /\ result_of JUndefined
       (localStorage_getItem THEME_KEY (page_after (click_handler loaded_quota_page)))
     = JNull
  /\ persisted (page_after (click_handler loaded_quota_page)) <> Some "light".
Proof. vm_compute. repeat split; discriminate. Qed.

(** C2, amended: from state tag [dark] one invocation of the listener
    returns normally and leaves tag [light], the light stylesheet and the
    control offering [dark]; a second one leaves tag [dark], the dark
    stylesheet and the control offering [light].  The stored entry becomes
    [light], then [dark], when the storage write succeeds, and stays as it
    was when the write throws.  From every page, an invocation of the
    listener returns normally and changes the state tag. *)
Theorem C2_toggle (p : page) :
  body_theme p = Some "dark" ->
  exists p1 p2 : page,
    click_handler p = Normal tt p1
    /\ click_handler p1 = Normal tt p2
    /\ body_theme p1 = Some "light"
    /\ link p1 = (fun _ => to_string (THEMES_get "light")) <$> link p
    /\ innerHTML <$> btn p1 = (fun _ => moon_html) <$> btn p
    /\ offered moon_html = Some "dark"
    /\ persisted p1 = (if writable (localStorage p) then Some "light" else persisted p)
    /\ body_theme p2 = Some "dark"
    /\ link p2 = (fun _ => to_string (THEMES_get "dark")) <$> link p
    /\ innerHTML <$> btn p2 = (fun _ => sun_html) <$> btn p
    /\ offered sun_html = Some "light"
    /\ persisted p2 = (if writable (localStorage p) then Some "dark" else persisted p)
    /\ forall q : page,
        completes (click_handler q) = true
        /\ body_theme (page_after (click_handler q)) <> body_theme q.
Proof.
  intros Hd.
  exists (applied "light" p), (applied "dark" (applied "light" p)).
  split; [rewrite click_handler_spec, click_theme_spec, Hd; reflexivity |].
  split; [rewrite click_handler_spec, click_theme_spec; reflexivity |].
  split; [reflexivity |].
  split; [reflexivity |].
  split; [unfold applied; simpl; destruct (btn p); reflexivity |].
  split; [vm_compute; reflexivity |].
  split; [apply applied_persisted |].
  split; [reflexivity |].
  split; [unfold applied; simpl; destruct (link p); reflexivity |].
  split; [unfold applied; simpl; destruct (btn p); reflexivity |].
  split; [vm_compute; reflexivity |].
  split.
  - rewrite applied_persisted, applied_writable, applied_persisted.
    destruct (writable (localStorage p)); reflexivity.
  - intros q. split; [| apply click_changes_tag].
    rewrite click_handler_spec. reflexivity.
Qed.

Lemma C2_toggle_witness :
  body_theme loaded_page = Some "dark"
  /\ exists p1 p2 : page,
    click_handler loaded_page = Normal tt p1
    /\ click_handler p1 = Normal tt p2
    /\ body_theme p1 = Some "light"
    /\ link p1 = (fun _ => to_string (THEMES_get "light")) <$> link loaded_page
    /\ innerHTML <$> btn p1 = (fun _ => moon_html) <$> btn loaded_page
    /\ offered moon_html = Some "dark"
    /\ persisted p1 = (if writable (localStorage loaded_page) then Some "light"
        else persisted loaded_page)
    /\ body_theme p2 = Some "dark"
    /\ link p2 = (fun _ => to_string (THEMES_get "dark")) <$> link loaded_page
    /\ innerHTML <$> btn p2 = (fun _ => sun_html) <$> btn loaded_page
    /\ offered sun_html = Some "light"
    /\ persisted p2 = (if writable (localStorage loaded_page) then Some "dark"
        else persisted loaded_page)
    /\ forall q : page,
        completes (click_handler q) = true
        /\ body_theme (page_after (click_handler q)) <> body_theme q.
Proof.
  split; [reflexivity |].
  apply (C2_toggle loaded_page). reflexivity.
Defined.

(** ** Initialization (C4, C5, C6) *)

(** C4: when reading the fixed key yields [light], [init] alone, with no
    click, returns normally and leaves the state tag [light], the light
    stylesheet on the link element and the control offering [dark], each
    where the element exists. *)
Theorem C4_round_trip_light (p : page) :
  localStorage_getItem THEME_KEY p = Normal (JStr "light") p ->
  exists p' : page,
    init p = Normal tt p'
    /\ last_applied [Init] p None = Some "light"
    /\ body_theme p' = Some "light"
    /\ link p' = (fun _ => to_string (THEMES_get "light")) <$> link p
    /\ innerHTML <$> btn p' = (fun _ => moon_html) <$> btn p
    /\ offered moon_html = Some "dark".
Proof.
  intros H. pose proof (init_theme_light p H) as Hv.
  destruct (init_fields p _ Hv) as (p' & Hi & Hl & Hb & Hc & _).
  exists p'. split; [exact Hi |].
  split; [simpl; rewrite Hv; reflexivity |].
  split; [exact Hb |]. split; [exact Hl |]. split; [exact Hc |].
  vm_compute; reflexivity.
Qed.

Lemma C4_round_trip_light_witness :
  localStorage_getItem THEME_KEY light_stored_page = Normal (JStr "light") light_stored_page
  /\ exists p' : page,
    init light_stored_page = Normal tt p'
    /\ last_applied [Init] light_stored_page None = Some "light"
    /\ body_theme p' = Some "light"
    /\ link p' = (fun _ => to_string (THEMES_get "light")) <$> link light_stored_page
    /\ innerHTML <$> btn p' = (fun _ => moon_html) <$> btn light_stored_page
    /\ offered moon_html = Some "dark".
Proof.
  split; [reflexivity |].
  apply (C4_round_trip_light light_stored_page). reflexivity.
Defined.

(** With nothing stored and storage writes that throw, [init] applies
    [dark] while nothing is stored, and reading the key still yields [null]:
    the persisted value after initialization is not [dark]. *)
Lemma C5_counterexample :
  persisted quota_page = None
  /\ body_theme (page_after (init quota_page)) = Some "dark"
  /\ persisted (page_after (init quota_page)) = None
  /\ result_of JUndefined (localStorage_getItem THEME_KEY (page_after (init quota_page)))
     = JNull
  /\ persisted (page_after (init quota_page)) <> Some "dark".
Proof. vm_compute. repeat split; discriminate. Qed.

(** C5, amended: when nothing is stored under the fixed key, or the storage
    read throws, [init] returns normally and leaves the state tag [dark],
    the dark stylesheet on the link element and the control offering
    [light], each where the element exists.  The stored entry becomes [dark]
    when the storage write succeeds and stays as it was when the write
    throws. *)
Theorem C5_default_dark (p : page) :
  persisted p = None \/ readable (localStorage p) = false ->
  exists p' : page,
    init p = Normal tt p'
    /\ last_applied [Init] p None = Some "dark"
    /\ body_theme p' = Some "dark"
    /\ link p' = (fun _ => to_string (THEMES_get "dark")) <$> link p
    /\ innerHTML <$> btn p' = (fun _ => sun_html) <$> btn p
    /\ offered sun_html = Some "light"
    /\ persisted p' = (if writable (localStorage p) then Some "dark" else persisted p).
Proof.
  intros H.
  destruct (init_theme_dark p) as (v & Hv & Hn).
  { destruct H as [H | H]; [right; congruence | left; exact H]. }
  destruct (init_fields p v Hv) as (p' & Hi & Hl & Hb & Hc & Hs).
  rewrite Hn in *.
  exists p'. split; [exact Hi |].
  split; [simpl; rewrite Hv; simpl; rewrite Hn; reflexivity |].
  split; [exact Hb |]. split; [exact Hl |]. split; [exact Hc |].
  split; [vm_compute; reflexivity | exact Hs].
Qed.

Lemma C5_default_dark_witness :
  (persisted fresh_page = None \/ readable (localStorage fresh_page) = false)
  /\ exists p' : page,
    init fresh_page = Normal tt p'
    /\ last_applied [Init] fresh_page None = Some "dark"
    /\ body_theme p' = Some "dark"
    /\ link p' = (fun _ => to_string (THEMES_get "dark")) <$> link fresh_page
    /\ innerHTML <$> btn p' = (fun _ => sun_html) <$> btn fresh_page
    /\ offered sun_html = Some "light"
    /\ persisted p' =
       (if writable (localStorage fresh_page) then Some "dark" else persisted fresh_page).
Proof.
  split; [left; reflexivity |].
  apply (C5_default_dark fresh_page). left. reflexivity.
Defined.

(** C6: when the entry stored under the fixed key is a string other than
    [dark] and [light], [init] returns normally and leaves the state tag
    [dark] and, where the control exists, the control offering [light]. *)
Theorem C6_invalid_value_dark (p : page) (s : string) :
  persisted p = Some s ->
  s <> "dark" ->
  s <> "light" ->
  exists p' : page,
    init p = Normal tt p'
    /\ last_applied [Init] p None = Some "dark"
    /\ body_theme p' = Some "dark"
    /\ innerHTML <$> btn p' = (fun _ => sun_html) <$> btn p
    /\ offered sun_html = Some "light".
Proof.
  intros Hs _ Hl.
  destruct (init_theme_dark p) as (v & Hv & Hn).
  { right. rewrite Hs. congruence. }
  destruct (init_fields p v Hv) as (p' & Hi & _ & Hb & Hc & _).
  rewrite Hn in *.
  exists p'. split; [exact Hi |].
  split; [simpl; rewrite Hv; simpl; rewrite Hn; reflexivity |].
  split; [exact Hb |]. split; [exact Hc |].
  vm_compute; reflexivity.
Qed.

Lemma C6_invalid_value_dark_witness :
  persisted odd_stored_page = Some "solarized"
  /\ "solarized" <> "dark"
  /\ "solarized" <> "light"
  /\ exists p' : page,
    init odd_stored_page = Normal tt p'
    /\ last_applied [Init] odd_stored_page None = Some "dark"
    /\ body_theme p' = Some "dark"
    /\ innerHTML <$> btn p' = (fun _ => sun_html) <$> btn odd_stored_page
    /\ offered sun_html = Some "light".
Proof.
  split; [reflexivity |].
  split; [discriminate |].
  split; [discriminate |].
  apply (C6_invalid_value_dark odd_stored_page "solarized");
    [reflexivity | discriminate | discriminate].
Defined.

(** ** Failing storage writes (C7) *)

Lemma view_click_handler (p1 p2 : page) :
  view p1 = view p2 ->
  view (page_after (click_handler p1)) = view (page_after (click_handler p2)).
Proof.
  unfold view. intros H.
  assert (Hl : link p1 = link p2) by congruence.
  assert (Hb : body_theme p1 = body_theme p2) by congruence.
  assert (Hc : innerHTML <$> btn p1 = innerHTML <$> btn p2) by congruence.
  rewrite !click_handler_spec, !click_theme_spec. simpl. rewrite Hl, Hb.
  destruct (btn p1), (btn p2); simpl in *; congruence.
Qed.

Lemma view_run_clicks (n : nat) :
  forall p1 p2 : page,
    view p1 = view p2 ->
    view (page_after (run (replicate n Click) p1))
    = view (page_after (run (replicate n Click) p2)).
Proof.
  induction n as [| n IH]; intros p1 p2 H; simpl; [exact H |].
  unfold bind. rewrite !click_handler_spec.
  apply IH.
  pose proof (view_click_handler p1 p2 H) as Hc.
  rewrite !click_handler_spec in Hc. exact Hc.
Qed.

Lemma view_apply_storage (theme : jsval) (p : page) :
  view (page_after (apply theme (storage_failing p)))
  = view (page_after (apply theme (storage_working p))).
Proof. rewrite !apply_spec. simpl. rewrite !applied_view. reflexivity. Qed.

Lemma init_theme_storage (p : page) :
  result_of JUndefined (init_theme (storage_failing p))
  = result_of JUndefined (init_theme (storage_working p)).
Proof.
  unfold init_theme, try_catch, bind, localStorage_getItem, ret. simpl.
  destruct (readable (localStorage p)); reflexivity.
Qed.

Lemma view_step_storage (e : event) (p : page) :
  view (page_after (step e (storage_failing p)))
  = view (page_after (step e (storage_working p))).
Proof.
  destruct e; simpl.
  - destruct (init_theme_total (storage_failing p)) as [v1 H1].
    destruct (init_theme_total (storage_working p)) as [v2 H2].
    pose proof (init_theme_storage p) as Hv. rewrite H1, H2 in Hv. simpl in Hv. subst v2.
    rewrite (init_spec _ _ H1), (init_spec _ _ H2). simpl.
    unfold view, registered, applied. simpl. destruct (btn p); reflexivity.
  - apply view_click_handler. reflexivity.
Qed.

Lemma persisted_step_failing (e : event) (p : page) :
  writable (localStorage p) = false ->
  writable (localStorage (page_after (step e p))) = false
  /\ persisted (page_after (step e p)) = persisted p.
Proof.
  intros Hw. destruct e; simpl.
  - destruct (init_theme_total p) as [v Hv]. rewrite (init_spec p v Hv). simpl.
    change (persisted (registered (applied (normalize v) p)))
      with (persisted (applied (normalize v) p)).
    rewrite applied_persisted, Hw. split; [| reflexivity].
    exact Hw.
  - rewrite click_handler_spec.
    change (page_after (Normal tt ?q)) with q.
    rewrite applied_persisted, applied_writable, Hw. split; reflexivity.
Qed.

Lemma persisted_run_failing (evs : list event) :
  forall p : page,
    writable (localStorage p) = false ->
    persisted (page_after (run evs p)) = persisted p.
Proof.
  induction evs as [| e rest IH]; intros p Hw; simpl; [reflexivity |].
  unfold bind. destruct (step_total e p) as [p1 Hp1].
  destruct (persisted_step_failing e p Hw) as [Hw1 Hs1].
  rewrite Hp1 in *. simpl in *. rewrite (IH p1 Hw1). exact Hs1.
Qed.

(** For [init], a click, and [init] again on an empty store, the last
    [init] reads [light] when the click could store it and finds nothing
    when the write threw: the final state tags differ. *)
Lemma C7_counterexample :
  body_theme (page_after (run [Init; Click; Init] (storage_failing fresh_page)))
  = Some "dark"
  /\ body_theme (page_after (run [Init; Click; Init] (storage_working fresh_page)))
     = Some "light"
  /\ view (page_after (run [Init; Click; Init] (storage_failing fresh_page)))
     <> view (page_after (run [Init; Click; Init] (storage_working fresh_page))).
Proof. vm_compute. repeat split; discriminate. Qed.

(** C7, amended: when every storage write throws, [apply], [init] and the
    listener still return normally on every page, and so does every run.
    Each single call leaves the stylesheet reference, the state tag and the
    control markup it would leave from the same page with working storage,
    and so does every page lifetime, one [init] followed by any number of
    listener invocations; the stored items stay as they were. *)
Theorem C7_storage_failure_resilience
    (p : page) (theme : jsval) (e : event) (evs : list event) (n : nat) :
  completes (apply theme (storage_failing p)) = true
  /\ completes (step e (storage_failing p)) = true
  /\ completes (run evs (storage_failing p)) = true
  /\ view (page_after (apply theme (storage_failing p)))
     = view (page_after (apply theme (storage_working p)))
  /\ view (page_after (step e (storage_failing p)))
     = view (page_after (step e (storage_working p)))
  /\ view (page_after (run (Init :: replicate n Click) (storage_failing p)))
     = view (page_after (run (Init :: replicate n Click) (storage_working p)))
  /\ persisted (page_after (run evs (storage_failing p))) = persisted p.
Proof.
  split; [rewrite apply_spec; reflexivity |].
  split; [destruct (step_total e (storage_failing p)) as [p1 ->]; reflexivity |].
  split; [destruct (run_total evs (storage_failing p)) as [p1 ->]; reflexivity |].
  split; [apply view_apply_storage |].
  split; [apply view_step_storage |].
  split.
  - pose proof (view_step_storage Init p) as Hi.
    simpl in *. unfold bind.
    destruct (step_total Init (storage_failing p)) as [p1 H1].
    destruct (step_total Init (storage_working p)) as [p2 H2].
    simpl in H1, H2. rewrite H1, H2 in *. simpl in Hi.
    apply view_run_clicks. exact Hi.
  - rewrite persisted_run_failing; reflexivity.
Qed.

(** ** How calls of [apply] compose *)



Lemma opposite_valid (t : string) : opposite t = "dark" \/ opposite t = "light".
Proof. unfold opposite. destruct (String.eqb t "dark"); auto. Qed.

Lemma opposite_opposite (t : string) :
  t = "dark" \/ t = "light" -> opposite (opposite t) = t.
Proof. intros [-> | ->]; reflexivity. Qed.


Lemma flipped_succ (n : nat) (t : string) :
  t = "dark" \/ t = "light" -> flipped n (opposite t) = flipped (S n) t.
Proof.
  intros Ht. unfold flipped. rewrite Nat.even_succ, <- Nat.negb_even.
  destruct (Nat.even n); simpl; [reflexivity | apply opposite_opposite, Ht].
Qed.


(** The listener on a page whose state tag is a valid preference [t]. *)
Lemma click_handler_valid (p : page) (t : string) :
  body_theme p = Some t ->
  t = "dark" \/ t = "light" ->
  click_handler p = Normal tt (applied (opposite t) p).
Proof.
  intros Hb Ht. rewrite click_handler_spec, click_theme_spec, Hb.
  destruct Ht as [-> | ->]; reflexivity.
Qed.



(** ** What a run leaves alone *)

Lemma step_shape (e : event) (p : page) :
  exists t : string,
    (t = "dark" \/ t = "light")
    /\ (step e p = Normal tt (applied t p)
        \/ step e p = Normal tt (registered (applied t p))).
Proof.
  destruct e; simpl.
  - destruct (init_theme_total p) as [v Hv].
    exists (normalize v). split; [apply normalize_valid |].
    right. apply init_spec, Hv.
  - eexists. split; [apply normalize_valid |].
    left. apply click_handler_spec.
Qed.

Lemma applied_other_key (t k : string) (p : page) :
  k <> THEME_KEY ->
  items (localStorage (applied t p)) !! k = items (localStorage p) !! k.
Proof.
  intros Hk. unfold applied. simpl.
  destruct (writable (localStorage p)); simpl; [| reflexivity].
  apply lookup_insert_ne. congruence.
Qed.

Lemma applied_readable (t : string) (p : page) :
  readable (localStorage (applied t p)) = readable (localStorage p).
Proof. unfold applied. simpl. destruct (writable (localStorage p)); reflexivity. Qed.

(** X3: a run of [init] calls and listener invocations touches the storage
    under the fixed key only: the entry of every other key is what it was,
    whatever the storage does on reads and writes. *)
Theorem run_keeps_other_keys (evs : list event) (k : string) (p : page) :
  k <> THEME_KEY ->
  items (localStorage (page_after (run evs p))) !! k = items (localStorage p) !! k.
Proof.
  intros Hk. revert p.
  induction evs as [| e rest IH]; intros p; simpl; [reflexivity |].
  unfold bind.
  destruct (step_shape e p) as (t & _ & [-> | ->]); rewrite IH.
  - apply applied_other_key, Hk.
  - change (localStorage (registered (applied t p))) with (localStorage (applied t p)).
    apply applied_other_key, Hk.
Qed.

Lemma run_keeps_other_keys_witness :
  "taw_session" <> THEME_KEY
  /\ items (localStorage (page_after (run [Init; Click; Click; Init] shared_storage_page)))
       !! "taw_session"
     = items (localStorage shared_storage_page) !! "taw_session".
Proof.
  split; [discriminate |].
  apply (run_keeps_other_keys [Init; Click; Click; Init] "taw_session" shared_storage_page).
  discriminate.
Defined.

(** ** When [init] applies [light] *)

Lemma init_theme_light_iff (p : page) (v : jsval) :
  init_theme p = Normal v p ->
  (v = JStr "light" <-> localStorage_getItem THEME_KEY p = Normal (JStr "light") p).
Proof.
  unfold init_theme, try_catch, bind, localStorage_getItem, ret.
  destruct (readable (localStorage p)).
  - destruct (items (localStorage p) !! THEME_KEY) as [s |]; simpl.
    + destruct (String.eqb_spec s "") as [-> | Hne]; simpl; intros [= <-];
        split; intros H; try discriminate; congruence.
    + intros [= <-]. split; intros H; discriminate.
  - intros [= <-]. split; intros H; discriminate.
Qed.

(** X4: [init] leaves the state tag [light] exactly when reading the fixed
    key succeeds and yields the string [light]; in every other case, a
    throwing read, an absent entry or any other string, the tag is [dark]. *)
Theorem init_light_iff (p : page) :
  (body_theme (page_after (init p)) = Some "light"
   <-> localStorage_getItem THEME_KEY p = Normal (JStr "light") p)
  /\ (body_theme (page_after (init p)) = Some "light"
      \/ body_theme (page_after (init p)) = Some "dark").
Proof.
  destruct (init_theme_total p) as [v Hv].
  rewrite (init_spec p v Hv). simpl.
  pose proof (init_theme_light_iff p v Hv) as Hiff.
  destruct (normalize_cases v) as [[Hl ->] | [Hn ->]].
  - split; [| left; reflexivity]. split; intros _; [apply Hiff, Hl | reflexivity].
  - split; [| right; reflexivity]. split; [discriminate |].
    intros H. exfalso. apply Hn, Hiff, H.
Qed.

(** ** Listeners *)

Lemma step_elements (e : event) (p : page) :
  click_listeners <$> btn (page_after (step e p))
  = (fun b => click_listeners b + inits [e]) <$> btn p
  /\ (is_Some (link (page_after (step e p))) <-> is_Some (link p)).
Proof.
  destruct e; simpl.
  - destruct (init_theme_total p) as [v Hv]. rewrite (init_spec p v Hv). simpl.
    split.
    + destruct (btn p) as [b |]; simpl; [| reflexivity].
      f_equal. rewrite Nat.add_1_r. reflexivity.
    + destruct (link p); simpl; split; intros [x Hx]; try discriminate; eauto.
  - rewrite click_handler_spec. simpl. split.
    + destruct (btn p) as [b |]; simpl; [| reflexivity].
      f_equal. rewrite Nat.add_0_r. reflexivity.
    + destruct (link p); simpl; split; intros [x Hx]; try discriminate; eauto.
Qed.

(** X5: through any run an absent control stays absent and an absent link
    element stays absent, and the listeners on an existing control grow by
    one for every [init] call and by none for a listener invocation. *)
Theorem run_listeners (evs : list event) (p : page) :
  click_listeners <$> btn (page_after (run evs p))
  = (fun b => click_listeners b + inits evs) <$> btn p
  /\ (is_Some (link (page_after (run evs p))) <-> is_Some (link p)).
Proof.
  revert p. induction evs as [| e rest IH]; intros p.
  - simpl. split; [| reflexivity].
    destruct (btn p); simpl; [f_equal; rewrite Nat.add_0_r |]; reflexivity.
  - simpl run. unfold bind.
    destruct (step_total e p) as [p1 Hp1].
    destruct (step_elements e p) as [Hb Hl]. rewrite Hp1 in *. simpl page_after in *.
    destruct (IH p1) as [Hb' Hl'].
    split; [| rewrite Hl'; exact Hl].
    rewrite Hb'.
    destruct (btn p1) as [b1 |], (btn p) as [b |]; simpl in *; try discriminate;
      [| reflexivity].
    injection Hb as Hb. rewrite Hb. f_equal.
    destruct e; simpl; rewrite <- ?Nat.add_assoc; reflexivity.
Qed.

Lemma iter_clicks (k : nat) :
  Nat.iter k (fun m : js unit => click_handler ;; m) (ret tt) = run (replicate k Click).
Proof. induction k as [| k IH]; simpl; [| rewrite IH]; reflexivity. Qed.

Lemma clicks_tag (n : nat) :
  forall (q : page) (t : string),
    body_theme q = Some t ->
    t = "dark" \/ t = "light" ->
    exists q' : page,
      run (replicate n Click) q = Normal tt q'
      /\ body_theme q' = Some (flipped n t).
Proof.
  induction n as [| n IH]; intros q t Hb Ht.
  - exists q. split; [reflexivity | exact Hb].
  - simpl. unfold bind. rewrite (click_handler_valid q t Hb Ht).
    destruct (IH (applied (opposite t) q) (opposite t) eq_refl (opposite_valid t))
      as (q' & Hr & Hq).
    exists q'. split; [exact Hr |].
    rewrite Hq, (flipped_succ n t Ht). reflexivity.
Qed.

(** X6: a user click calls every registered listener, so on a page whose
    state tag is [dark] or [light] it returns normally and flips the tag once
    per listener: the tag is the other preference for an odd number of
    listeners and the same one for an even number, as after a second [init]. *)
Theorem user_click_parity (q : page) (t : string) :
  body_theme q = Some t ->
  t = "dark" \/ t = "light" ->
  exists q' : page,
    user_click q = Normal tt q'
    /\ body_theme q' = Some (flipped (registered_listeners q) t).
Proof.
  intros Hb Ht. unfold user_click, registered_listeners.
  destruct (btn q) as [b |].
  - rewrite iter_clicks. apply clicks_tag; assumption.
  - exists q. split; [reflexivity | exact Hb].
Qed.

Lemma user_click_parity_witness :
  body_theme twice_loaded_page = Some "dark"
  /\ registered_listeners twice_loaded_page = 2
  /\ exists q' : page,
      user_click twice_loaded_page = Normal tt q'
      /\ body_theme q' = Some (flipped (registered_listeners twice_loaded_page) "dark").
Proof.
  split; [reflexivity |].
  split; [reflexivity |].
  apply (user_click_parity twice_loaded_page "dark"); [reflexivity | left; reflexivity].
Defined.

(** ** Reloading *)

Lemma init_theme_stored (p : page) (t : string) :
  readable (localStorage p) = true ->
  persisted p = Some t ->
  t = "dark" \/ t = "light" ->
  init_theme p = Normal (JStr t) p.
Proof.
  unfold persisted. intros Hr Hs Ht.
  unfold init_theme, try_catch, bind, localStorage_getItem, ret.
  rewrite Hr, Hs. destruct Ht as [-> | ->]; reflexivity.
Qed.

Lemma init_theme_same_storage (p q : page) :
  localStorage q = localStorage p ->
  result_of JUndefined (init_theme q) = result_of JUndefined (init_theme p).
Proof.
  intros H. unfold init_theme, try_catch, bind, localStorage_getItem, ret.
  rewrite H. destruct (readable (localStorage p)); reflexivity.
Qed.

(** X7: a reload re-applies what was applied.  When the storage can be read
    and written, [init] on any page that carries the storage left by a call
    of [apply] sets the state tag, the stylesheet of an existing link, the
    markup of an existing control and the stored entry to the normalized
    argument of that call. *)
Theorem reload_reapplies (theme : jsval) (p q : page) :
  readable (localStorage p) = true ->
  writable (localStorage p) = true ->
  exists q' : page,
    init (with_localStorage (localStorage (page_after (apply theme p))) q) = Normal tt q'
    /\ body_theme q' = Some (normalize theme)
    /\ link q' = (fun _ => to_string (THEMES_get (normalize theme))) <$> link q
    /\ innerHTML <$> btn q' = (fun _ => control_html (normalize theme)) <$> btn q
    /\ persisted q' = Some (normalize theme).
Proof.
  intros Hr Hw. rewrite apply_spec. simpl page_after.
  set (q0 := with_localStorage (localStorage (applied (normalize theme) p)) q).
  assert (Hr0 : readable (localStorage q0) = true)
    by (unfold q0; simpl; rewrite Hw; exact Hr).
  assert (Hw0 : writable (localStorage q0) = true)
    by (unfold q0; simpl; rewrite Hw; exact Hw).
  assert (Hs0 : persisted q0 = Some (normalize theme)).
  { change (persisted q0) with (persisted (applied (normalize theme) p)).
    rewrite applied_persisted, Hw. reflexivity. }
  pose proof (init_theme_stored q0 _ Hr0 Hs0 (normalize_valid theme)) as Hv.
  destruct (init_fields q0 _ Hv) as (q' & Hi & Hl & Hb & Hc & Hs).
  rewrite normalize_idem in *. rewrite Hw0 in Hs.
  exists q'. repeat split; assumption.
Qed.

Lemma reload_reapplies_witness :
  readable (localStorage fresh_page) = true
  /\ writable (localStorage fresh_page) = true
  /\ exists q' : page,
      init (with_localStorage
              (localStorage (page_after (apply (JStr "light") fresh_page)))
              odd_stored_page) = Normal tt q'
      /\ body_theme q' = Some (normalize (JStr "light"))
      /\ link q' = (fun _ => to_string (THEMES_get (normalize (JStr "light"))))
                   <$> link odd_stored_page
      /\ innerHTML <$> btn q' = (fun _ => control_html (normalize (JStr "light")))
                               <$> btn odd_stored_page
      /\ persisted q' = Some (normalize (JStr "light")).
Proof.
  split; [reflexivity |].
  split; [reflexivity |].
  apply (reload_reapplies (JStr "light") fresh_page odd_stored_page); reflexivity.
Defined.

Lemma init_again_theme (p : page) (v : jsval) :
  init_theme p = Normal v p ->
  exists v1 : jsval,
    init_theme (registered (applied (normalize v) p))
    = Normal v1 (registered (applied (normalize v) p))
    /\ normalize v1 = normalize v.
Proof.
  intros Hv. set (p1 := registered (applied (normalize v) p)).
  destruct (readable (localStorage p)) eqn:Hr.
  - destruct (writable (localStorage p)) eqn:Hw.
    + exists (JStr (normalize v)). split; [| apply normalize_idem].
      apply init_theme_stored; [| | apply normalize_valid].
      * change (readable (localStorage p1))
          with (readable (localStorage (applied (normalize v) p))).
        rewrite applied_readable. exact Hr.
      * change (persisted p1) with (persisted (applied (normalize v) p)).
        rewrite applied_persisted, Hw. reflexivity.
    + destruct (init_theme_total p1) as [v1 Hv1]. exists v1. split; [exact Hv1 |].
      assert (Hst : localStorage p1 = localStorage p)
        by (unfold p1, registered, applied; simpl; rewrite Hw; reflexivity).
      pose proof (init_theme_same_storage p p1 Hst) as He.
      rewrite Hv, Hv1 in He. simpl in He. congruence.
  - destruct (init_theme_dark p (or_introl Hr)) as (v0 & Hv0 & Hn0).
    assert (v0 = v) by congruence. subst v0.
    assert (Hr1 : readable (localStorage p1) = false).
    { change (readable (localStorage p1))
        with (readable (localStorage (applied (normalize v) p))).
      rewrite applied_readable. exact Hr. }
    destruct (init_theme_dark p1 (or_introl Hr1)) as (v1 & Hv1 & Hn1).
    exists v1. split; [exact Hv1 | congruence].
Qed.

(** X8: a second call of [init] changes nothing a user sees and nothing
    stored: it leaves the stylesheet reference, the state tag, the control
    markup and the storage of the first call, and only adds one more click
    listener to an existing control. *)
Theorem init_twice (p : page) :
  exists p1 p2 : page,
    init p = Normal tt p1
    /\ init p1 = Normal tt p2
    /\ view p2 = view p1
    /\ localStorage p2 = localStorage p1
    /\ click_listeners <$> btn p2 = (fun b => S (click_listeners b)) <$> btn p1.
Proof.
  destruct (init_theme_total p) as [v Hv].
  destruct (init_again_theme p v Hv) as (v1 & Hv1 & Hn).
  exists (registered (applied (normalize v) p)).
  exists (registered (applied (normalize v1) (registered (applied (normalize v) p)))).
  split; [apply init_spec, Hv |].
  split; [apply init_spec, Hv1 |].
  rewrite Hn.
  destruct p as [[l |] [b |] bt [it r [|]]]; unfold view, registered, applied; simpl;
    rewrite ?insert_insert_eq; repeat split; reflexivity.
Qed.

(** ** The script from start to the end of parsing *)

#[local] Arguments run_on_page : simpl never.

Lemma run_on_page_init (d : document) :
  run_on_page init d
  = (None, mkDocument (readyState d) (DOMContentLoaded_init d)
                      (page_after (init (the_page d)))).
Proof.
  unfold run_on_page.
  destruct (step_total Init (the_page d)) as [p1 Hp1]. simpl in Hp1.
  rewrite Hp1. reflexivity.
Qed.

Lemma page_load_spec (d : document) :
  DOMContentLoaded_init d = false ->
  exists d2 : document,
    page_load d = (None, d2)
    /\ the_page d2 = page_after (init (the_page d)).
Proof.
  intros Hf. unfold page_load, main, fire_DOMContentLoaded.
  destruct d as [[| |] f p]; simpl in *; subst f;
    repeat (simpl; rewrite ?run_on_page_init); eauto.
Qed.

(** X9: on either branch of the ready-state test the script runs [init]
    exactly once and nothing throws.  In a loading document the page is
    untouched until [DOMContentLoaded] and [init] runs then; otherwise
    [init] runs at once and a later [DOMContentLoaded] changes nothing.  An
    existing control ends with one more click listener. *)
Theorem script_runs_init_once (d : document) :
  DOMContentLoaded_init d = false ->
  exists d1 d2 : document,
    main d = (None, d1)
    /\ fire_DOMContentLoaded d1 = (None, d2)
    /\ the_page d1 = match readyState d with
                     | Loading => the_page d
                     | _ => page_after (init (the_page d))
                     end
    /\ the_page d2 = page_after (init (the_page d))
    /\ click_listeners <$> btn (the_page d2)
       = (fun b => S (click_listeners b)) <$> btn (the_page d).
Proof.
  intros Hf.
  assert (Hl : click_listeners <$> btn (page_after (init (the_page d)))
               = (fun b => S (click_listeners b)) <$> btn (the_page d)).
  { destruct (init_theme_total (the_page d)) as [v Hv].
    rewrite (init_spec _ v Hv). simpl. destruct (btn (the_page d)); reflexivity. }
  unfold main, fire_DOMContentLoaded.
  destruct d as [[| |] f p]; simpl in *; subst f;
    repeat (simpl; rewrite ?run_on_page_init);
    (eexists; eexists; split; [reflexivity |]);
    repeat (simpl; rewrite ?run_on_page_init);
    repeat split; try reflexivity; exact Hl.
Qed.

Lemma script_runs_init_once_witness :
  DOMContentLoaded_init loading_document = false
  /\ exists d1 d2 : document,
      main loading_document = (None, d1)
      /\ fire_DOMContentLoaded d1 = (None, d2)
      /\ the_page d1 = match readyState loading_document with
                       | Loading => the_page loading_document
                       | _ => page_after (init (the_page loading_document))
                       end
      /\ the_page d2 = page_after (init (the_page loading_document))
      /\ click_listeners <$> btn (the_page d2)
         = (fun b => S (click_listeners b)) <$> btn (the_page loading_document).
Proof.
  split; [reflexivity |].
  apply (script_runs_init_once loading_document). reflexivity.
Defined.

(** X10: once the script has loaded on a page whose control had no click
    listener, the state tag is [dark] or [light], and every user click
    returns normally and flips it: the first click leaves the other
    preference on the tag and its markup on the control, the second one
    brings the tag back. *)
Theorem click_after_page_load (d : document) (b : button) :
  DOMContentLoaded_init d = false ->
  btn (the_page d) = Some b ->
  click_listeners b = 0 ->
  exists (d2 : document) (t : string) (q1 q2 : page),
    page_load d = (None, d2)
    /\ (t = "dark" \/ t = "light")
    /\ body_theme (the_page d2) = Some t
    /\ user_click (the_page d2) = Normal tt q1
    /\ body_theme q1 = Some (opposite t)
    /\ innerHTML <$> btn q1 = Some (control_html (opposite t))
    /\ user_click q1 = Normal tt q2
    /\ body_theme q2 = Some t
    /\ innerHTML <$> btn q2 = Some (control_html t).
Proof.
  intros Hf Hb Hn.
  destruct (page_load_spec d Hf) as (d2 & Hload & Hp).
  destruct (init_theme_total (the_page d)) as [v Hv].
  rewrite (init_spec _ v Hv) in Hp. simpl in Hp.
  set (t := normalize v) in *.
  assert (Ht : t = "dark" \/ t = "light") by apply normalize_valid.
  assert (Hb2 : btn (the_page d2) = Some (mkButton (control_html t) 1)).
  { rewrite Hp. unfold registered, applied. simpl. rewrite Hb. simpl.
    rewrite Hn. reflexivity. }
  assert (Ht2 : body_theme (the_page d2) = Some t) by (rewrite Hp; reflexivity).
  set (q1 := applied (opposite t) (the_page d2)).
  assert (Hb1 : btn q1 = Some (mkButton (control_html (opposite t)) 1))
    by (unfold q1, applied; simpl; rewrite Hb2; reflexivity).
  exists d2, t, q1, (applied (opposite (opposite t)) q1).
  split; [exact Hload |]. split; [exact Ht |]. split; [exact Ht2 |].
  split.
  { rewrite (user_click_single _ _ Hb2 eq_refl).
    apply click_handler_valid; assumption. }
  split; [reflexivity |].
  split; [fold q1; rewrite Hb1; reflexivity |].
  split.
  { rewrite (user_click_single _ _ Hb1 eq_refl).
    apply click_handler_valid; [reflexivity | apply opposite_valid]. }
  rewrite (opposite_opposite t Ht).
  split; [reflexivity |].
  change (btn (applied t q1))
    with ((fun c => mkButton (control_html t) (click_listeners c)) <$> btn q1).
  rewrite Hb1. reflexivity.
Qed.

Lemma click_after_page_load_witness :
  DOMContentLoaded_init complete_document = false
  /\ btn (the_page complete_document) = Some (mkButton "" 0)
  /\ click_listeners (mkButton "" 0) = 0
  /\ exists (d2 : document) (t : string) (q1 q2 : page),
      page_load complete_document = (None, d2)
      /\ (t = "dark" \/ t = "light")
      /\ body_theme (the_page d2) = Some t
      /\ user_click (the_page d2) = Normal tt q1
      /\ body_theme q1 = Some (opposite t)
      /\ innerHTML <$> btn q1 = Some (control_html (opposite t))
      /\ user_click q1 = Normal tt q2
      /\ body_theme q2 = Some t
      /\ innerHTML <$> btn q2 = Some (control_html t).
Proof.
  split; [reflexivity |].
  split; [reflexivity |].
  split; [reflexivity |].
  apply (click_after_page_load complete_document (mkButton "" 0)); reflexivity.
Defined.

(** ** What is shown stays consistent *)

(** X11: the lookup in the [THEMES] table never misses.  For every argument
    of [apply] the normalized preference is a key of the table, so the
    reference written to an existing link element is one of its two
    addresses and never the text of [undefined]. *)
Theorem stylesheet_lookup_defined (theme : jsval) :
  exists url : string,
    THEMES !! normalize theme = Some url
    /\ THEMES_get (normalize theme) = JStr url
    /\ (url = "https://cdn.jsdelivr.net/npm/bootswatch@5.3.3/dist/darkly/bootstrap.min.css"
        \/ url = "https://cdn.jsdelivr.net/npm/bootswatch@5.3.3/dist/lux/bootstrap.min.css")
    /\ forall p : page, link (page_after (apply theme p)) = (fun _ => url) <$> link p.
Proof.
  destruct (normalize_cases theme) as [[_ Hn] | [_ Hn]].
  - exists "https://cdn.jsdelivr.net/npm/bootswatch@5.3.3/dist/lux/bootstrap.min.css".
    rewrite Hn. split; [vm_compute; reflexivity |].
    split; [vm_compute; reflexivity |]. split; [right; reflexivity |].
    intros p. rewrite apply_spec, Hn. reflexivity.
  - exists "https://cdn.jsdelivr.net/npm/bootswatch@5.3.3/dist/darkly/bootstrap.min.css".
    rewrite Hn. split; [vm_compute; reflexivity |].
    split; [vm_compute; reflexivity |]. split; [left; reflexivity |].
    intros p. rewrite apply_spec, Hn. reflexivity.
Qed.

(** The stylesheet reference, state tag and control markup of preference [t]
    on the elements that page [p0] has. *)
Lemma view_step_showing (e : event) (t : string) (p0 q : page) :
  view q = ((fun _ => to_string (THEMES_get t)) <$> link p0,
            Some t,
            (fun _ => control_html t) <$> btn p0) ->
  exists t' : string,
    (t' = "dark" \/ t' = "light")
    /\ view (page_after (step e q))
       = ((fun _ => to_string (THEMES_get t')) <$> link p0,
          Some t',
          (fun _ => control_html t') <$> btn p0).
Proof.
  unfold view. intros H.
  assert (Hl : link q = (fun _ => to_string (THEMES_get t)) <$> link p0) by congruence.
  assert (Hc : innerHTML <$> btn q = (fun _ => control_html t) <$> btn p0) by congruence.
  destruct (step_shape e q) as (t' & Ht' & [-> | ->]); exists t'; (split; [exact Ht' |]);
    unfold registered, applied; simpl; rewrite Hl;
    destruct (link p0), (btn q), (btn p0); simpl in *; congruence.
Qed.

Lemma view_run_showing (evs : list event) :
  forall (t : string) (p0 q : page),
    t = "dark" \/ t = "light" ->
    view q = ((fun _ => to_string (THEMES_get t)) <$> link p0,
              Some t,
              (fun _ => control_html t) <$> btn p0) ->
    exists t' : string,
      (t' = "dark" \/ t' = "light")
      /\ view (page_after (run evs q))
         = ((fun _ => to_string (THEMES_get t')) <$> link p0,
            Some t',
            (fun _ => control_html t') <$> btn p0).
Proof.
  induction evs as [| e rest IH]; intros t p0 q Ht H.
  - exists t. split; assumption.
  - simpl. unfold bind.
    destruct (view_step_showing e t p0 q H) as (t1 & Ht1 & H1).
    destruct (step_total e q) as [q1 Hq1]. rewrite Hq1 in *. simpl in H1.
    apply (IH t1 p0 q1 Ht1 H1).
Qed.

(** X12: after at least one [init] call or listener invocation, from any
    page and with any storage, what is shown names one preference: the state
    tag is [dark] or [light], an existing link element refers to the
    stylesheet of that preference, and an existing control carries its
    markup. *)
Theorem shown_state_consistent (e : event) (evs : list event) (p : page) :
  exists t : string,
    (t = "dark" \/ t = "light")
    /\ view (page_after (run (e :: evs) p))
       = ((fun _ => to_string (THEMES_get t)) <$> link p,
          Some t,
          (fun _ => control_html t) <$> btn p).
Proof.
  simpl. unfold bind.
  destruct (step_total e p) as [q Hq].
  assert (H : exists t, (t = "dark" \/ t = "light")
                        /\ view q = ((fun _ => to_string (THEMES_get t)) <$> link p,
                                     Some t,
                                     (fun _ => control_html t) <$> btn p)).
  { destruct (step_shape e p) as (t & Ht & [Hs | Hs]); rewrite Hs in Hq;
      injection Hq as <-; exists t; (split; [exact Ht |]);
      unfold view, registered, applied; simpl; destruct (btn p); reflexivity. }
  destruct H as (t & Ht & Hv). rewrite Hq.
  apply (view_run_showing evs t p q Ht Hv).
Qed.
